(** * Offer negotiation of the outdoor marketplace backend

    A shallow embedding of [models/Offer.js], of the offer-related part of
    [models/Product.js], [models/Conversation.js] and [models/Message.js],
    of the handlers of [routes/offers.js] and of the hourly expiry job of
    [server.js].

    Modelling conventions.
    - ObjectIds are natural numbers; dates are integers counting
      milliseconds; every [new Date()] and [Date.now()] of one request reads
      the same instant [now].
    - Currency amounts (JavaScript numbers) are integers: the handlers only
      compare them and copy them around.  An optional numeric field is an
      [option Z]; JavaScript truthiness makes an absent field and the number
      0 both false, see [and_then] and [unless].
    - A collection of offers is the list of its documents in insertion
      order.  Products are a finite map from id to document.
    - The handlers run in a state-and-exception monad over the store: a
      handler can return early with a response, or throw, in which case the
      route's [catch] answers 500.  Writes done before a throw stay: there
      is no transaction.
    - User documents referenced by offers and products exist (the
      [populate] of a buyer or a seller is never null), and writing a
      document that passes its validators succeeds.  The notification sink
      (conversation lookup, message creation) may fail, as the environment
      says.
    - Listings are never deleted by the application, so the listing of a
      stored offer exists.  Where it does not, [populate('listing')] gives
      null: the handlers are modelled as throwing a TypeError at the first
      use of the listing, and the statements below assume the listing. *)

From stdpp Require Import base decidable option list gmap strings pretty sorting relations.
From Stdlib Require Import ZArith Lia.

Local Open Scope Z_scope.

Abbreviation Id := nat.

(** JavaScript truthiness of an optional number: [undefined], [null] and 0
    are false.  [x && p(x)] for an optional number [x]: *)
Definition and_then (x : option Z) (p : Z → bool) : bool :=
  match x with
  | Some v => bool_decide (v ≠ 0) && p v
  | None => false
  end.

(** [!x || p(x)] for an optional number [x]. *)
Definition unless (x : option Z) (p : Z → bool) : bool :=
  match x with
  | Some v => negb (bool_decide (v ≠ 0)) || p v
  | None => true
  end.

(** [s || d] for an optional string: [undefined] and the empty string are
    false. *)
Definition or_else (s : option string) (d : string) : string :=
  match s with
  | Some EmptyString => d
  | Some v => v
  | None => d
  end.

Definition hours48 : Z := 48 * 60 * 60 * 1000.

(** ** models/Offer.js *)

Inductive Status := pending | accepted | declined | countered | expired | withdrawn.

#[global] Instance Status_eq_dec : EqDecision Status.
Proof. solve_decision. Defined.

Definition status_str (s : Status) : string :=
  match s with
  | pending => "pending"
  | accepted => "accepted"
  | declined => "declined"
  | countered => "countered"
  | expired => "expired"
  | withdrawn => "withdrawn"
  end.

(** The [enum] of [history.action] in the schema. *)
Definition action_enum : list string :=
  ["created"; "countered"; "accepted"; "declined"; "expired"; "withdrawn"].

Record CounterOffer := {
  co_amount : Z;
  co_message : option string;
  co_timestamp : Z
}.

Record HistoryEntry := {
  action : string;
  h_amount : option Z;
  h_message : option string;
  h_timestamp : Z;
  h_by : Id
}.

Inductive AutoResponse := auto_accept | auto_decline.

Module Offer.

Record t := {
  _id : Id;
  listing : Id;
  buyer : Id;
  seller : Id;
  offerAmount : Z;
  originalPrice : Z;
  message : option string;
  status : Status;
  counterOffer : option CounterOffer;
  expiresAt : Z;
  acceptedAt : option Z;
  declinedAt : option Z;
  autoAcceptPrice : option Z;
  minimumOffer : option Z;
  history : list HistoryEntry;
  createdAt : Z;
  updatedAt : Z
}.

Definition set_status (s : Status) (o : t) : t :=
  {| _id := _id o; listing := listing o; buyer := buyer o; seller := seller o;
     offerAmount := offerAmount o; originalPrice := originalPrice o;
     message := message o; status := s; counterOffer := counterOffer o;
     expiresAt := expiresAt o; acceptedAt := acceptedAt o;
     declinedAt := declinedAt o; autoAcceptPrice := autoAcceptPrice o;
     minimumOffer := minimumOffer o; history := history o;
     createdAt := createdAt o; updatedAt := updatedAt o |}.


Definition set_counterOffer (c : CounterOffer) (o : t) : t :=
  {| _id := _id o; listing := listing o; buyer := buyer o; seller := seller o;
     offerAmount := offerAmount o; originalPrice := originalPrice o;
     message := message o; status := status o; counterOffer := Some c;
     expiresAt := expiresAt o; acceptedAt := acceptedAt o;
     declinedAt := declinedAt o; autoAcceptPrice := autoAcceptPrice o;
     minimumOffer := minimumOffer o; history := history o;
     createdAt := createdAt o; updatedAt := updatedAt o |}.

Definition set_expiresAt (e : Z) (o : t) : t :=
  {| _id := _id o; listing := listing o; buyer := buyer o; seller := seller o;
     offerAmount := offerAmount o; originalPrice := originalPrice o;
     message := message o; status := status o; counterOffer := counterOffer o;
     expiresAt := e; acceptedAt := acceptedAt o;
     declinedAt := declinedAt o; autoAcceptPrice := autoAcceptPrice o;
     minimumOffer := minimumOffer o; history := history o;
     createdAt := createdAt o; updatedAt := updatedAt o |}.

Definition set_acceptedAt (d : Z) (o : t) : t :=
  {| _id := _id o; listing := listing o; buyer := buyer o; seller := seller o;
     offerAmount := offerAmount o; originalPrice := originalPrice o;
     message := message o; status := status o; counterOffer := counterOffer o;
     expiresAt := expiresAt o; acceptedAt := Some d;
     declinedAt := declinedAt o; autoAcceptPrice := autoAcceptPrice o;
     minimumOffer := minimumOffer o; history := history o;
     createdAt := createdAt o; updatedAt := updatedAt o |}.

Definition set_declinedAt (d : Z) (o : t) : t :=
  {| _id := _id o; listing := listing o; buyer := buyer o; seller := seller o;
     offerAmount := offerAmount o; originalPrice := originalPrice o;
     message := message o; status := status o; counterOffer := counterOffer o;
     expiresAt := expiresAt o; acceptedAt := acceptedAt o;
     declinedAt := Some d; autoAcceptPrice := autoAcceptPrice o;
     minimumOffer := minimumOffer o; history := history o;
     createdAt := createdAt o; updatedAt := updatedAt o |}.

Definition push_history (h : HistoryEntry) (o : t) : t :=
  {| _id := _id o; listing := listing o; buyer := buyer o; seller := seller o;
     offerAmount := offerAmount o; originalPrice := originalPrice o;
     message := message o; status := status o; counterOffer := counterOffer o;
     expiresAt := expiresAt o; acceptedAt := acceptedAt o;
     declinedAt := declinedAt o; autoAcceptPrice := autoAcceptPrice o;
     minimumOffer := minimumOffer o; history := history o ++ [h];
     createdAt := createdAt o; updatedAt := updatedAt o |}.

(** The [timestamps: true] option: [createdAt] is stamped when the
    document is first written, [updatedAt] at every write. *)
Definition stamp (isNew : bool) (now : Z) (o : t) : t :=
  {| _id := _id o; listing := listing o; buyer := buyer o; seller := seller o;
     offerAmount := offerAmount o; originalPrice := originalPrice o;
     message := message o; status := status o; counterOffer := counterOffer o;
     expiresAt := expiresAt o; acceptedAt := acceptedAt o;
     declinedAt := declinedAt o; autoAcceptPrice := autoAcceptPrice o;
     minimumOffer := minimumOffer o; history := history o;
     createdAt := if isNew then now else createdAt o; updatedAt := now |}.

(** The validators of the schema that can fail on a document built by the
    handlers: [offerAmount] has [min: 1], [message] has [maxLength: 500].
    Mongoose validates the whole document at every [save]. *)
Definition validate (o : t) : bool :=
  bool_decide (1 ≤ offerAmount o) &&
  match message o with
  | Some m => bool_decide (String.length m ≤ 500)%nat
  | None => true
  end.

(** [offerSchema.methods.checkAutoResponse] *)
Definition checkAutoResponse (o : t) : option AutoResponse :=
  if negb (bool_decide (status o = pending)) then None
  else if and_then (autoAcceptPrice o) (λ a, bool_decide (a ≤ offerAmount o))
  then Some auto_accept
  else if and_then (minimumOffer o) (λ m, bool_decide (offerAmount o < m))
  then Some auto_decline
  else None.

(** [offerSchema.methods.isExpired] *)
Definition isExpired (now : Z) (o : t) : bool :=
  bool_decide (status o = pending) && bool_decide (expiresAt o < now).

(** A Mongoose document in memory: the field values, whether it was
    built by [new Offer] and not written yet, and the paths marked as
    modified.  An assignment marks its path when the document is new or
    the value changes; a path filled by its schema default is not
    marked. *)
Record doc := {
  val : t;
  isNew : bool;
  modified : list string
}.

Definition isModified (path : string) (d : doc) : bool :=
  bool_decide (path ∈ modified d).

Definition assign (path : string) (changed : bool) (f : t → t) (d : doc) : doc :=
  {| val := f (val d);
     isNew := isNew d;
     modified := if isNew d || changed then path :: modified d else modified d |}.

Definition assign_status (s : Status) (d : doc) : doc :=
  assign "status" (negb (bool_decide (status (val d) = s))) (set_status s) d.


Definition assign_counterOffer (c : CounterOffer) (d : doc) : doc :=
  assign "counterOffer" true (set_counterOffer c) d.

Definition assign_expiresAt (e : Z) (d : doc) : doc :=
  assign "expiresAt" (negb (bool_decide (expiresAt (val d) = e))) (set_expiresAt e) d.

Definition assign_acceptedAt (e : Z) (d : doc) : doc :=
  assign "acceptedAt" (negb (bool_decide (acceptedAt (val d) = Some e))) (set_acceptedAt e) d.

Definition assign_declinedAt (e : Z) (d : doc) : doc :=
  assign "declinedAt" (negb (bool_decide (declinedAt (val d) = Some e))) (set_declinedAt e) d.

(** A document loaded from the collection. *)
Definition loaded (o : t) : doc :=
  {| val := o; isNew := false; modified := [] |}.

(** [new Offer({listing, buyer, seller, offerAmount, originalPrice,
    message, autoAcceptPrice, minimumOffer})]: [status] and [expiresAt]
    take their schema defaults; the timestamps are set by [stamp] when the
    document is written. *)
Definition new (now : Z) (id : Id) (listingId buyerId sellerId : Id)
    (amount price : Z) (msg : option string) (aap mo : option Z) : doc :=
  {| val := {| _id := id; listing := listingId; buyer := buyerId;
               seller := sellerId; offerAmount := amount;
               originalPrice := price; message := msg; status := pending;
               counterOffer := None; expiresAt := now + hours48;
               acceptedAt := None; declinedAt := None;
               autoAcceptPrice := aap; minimumOffer := mo; history := [];
               createdAt := now; updatedAt := now |};
     isNew := true;
     modified := ["listing"; "buyer"; "seller"; "offerAmount";
                  "originalPrice"; "message"; "autoAcceptPrice";
                  "minimumOffer"] |}.

(** [offerSchema.pre('save')]: add to the history when the status
    changed. *)
Definition pre_save (now : Z) (d : doc) : doc :=
  if isModified "status" d then
    let o := val d in
    let c := bool_decide (status o = countered) in
    {| val := push_history
                {| action := status_str (status o);
                   h_amount := if c then co_amount <$> counterOffer o
                               else Some (offerAmount o);
                   h_message := if c then counterOffer o ≫= co_message
                                else message o;
                   h_timestamp := now;
                   h_by := if c then seller o else buyer o |} o;
       isNew := isNew d;
       modified := modified d |}
  else d.

(** The document that [save] writes: the hook has run and the
    timestamps are set. *)
Definition written (now : Z) (d : doc) : t :=
  stamp (isNew d) now (val (pre_save now d)).

End Offer.

(** ** models/Product.js (the fields the offer routes read and write) *)

Module Product.

Inductive Status := available | pending | sold | inactive | removed.

#[global] Instance Status_eq_dec : EqDecision Status.
Proof. solve_decision. Defined.

(** The document's [_id] is its key in the collection. *)
Record t := {
  title : string;
  seller : Id;
  price : Z;
  acceptsOffers : bool;
  minimumOffer : option Z;
  autoAcceptPrice : option Z;
  status : Status;
  soldTo : option Id;
  soldPrice : option Z;
  soldAt : option Z
}.

(** The validators of the schema on the offer fields: the price is not
    negative, a minimum offer is below the price and an auto-accept price
    is at most the price.  Mongoose runs them at every [save]. *)
Definition validate (p : t) : bool :=
  bool_decide (0 ≤ price p) &&
  unless (minimumOffer p) (λ v, bool_decide (v < price p)) &&
  unless (autoAcceptPrice p) (λ v, bool_decide (v ≤ price p)).

(** [listing.status = 'sold'; listing.soldTo = b; listing.soldPrice = a]
    and, where the handler does it, [listing.soldAt = d]. *)
Definition sell (b : Id) (a : Z) (d : option Z) (p : t) : t :=
  {| title := title p; seller := seller p; price := price p;
     acceptsOffers := acceptsOffers p; minimumOffer := minimumOffer p;
     autoAcceptPrice := autoAcceptPrice p; status := sold;
     soldTo := Some b; soldPrice := Some a;
     soldAt := match d with Some _ => d | None => soldAt p end |}.

End Product.

(** ** models/Conversation.js and models/Message.js *)

Module Conversation.

Record t := {
  _id : Id;
  participants : list Id;
  listing : Id
}.

End Conversation.

Record OfferDetails := {
  offerId : Id;
  amount : Z;
  od_action : string
}.

Module Message.

Record t := {
  conversation : Id;
  sender : Id;
  receiver : Id;
  listing : Id;
  message : string;
  isOffer : bool;
  offerDetails : OfferDetails
}.

(** [message] is required (an empty string does not pass) and has
    [maxLength: 1000]. *)
Definition validate (m : t) : bool :=
  negb (bool_decide (message m = EmptyString)) &&
  bool_decide (String.length (message m) ≤ 1000)%nat.

End Message.

(** ** The document store and the request environment *)

Record Store := {
  products : gmap nat Product.t;
  offers : list Offer.t;
  conversations : list Conversation.t;
  messages : list Message.t
}.

Definition with_products (ps : gmap nat Product.t) (st : Store) : Store :=
  {| products := ps; offers := offers st;
     conversations := conversations st; messages := messages st |}.

Definition with_offers (os : list Offer.t) (st : Store) : Store :=
  {| products := products st; offers := os;
     conversations := conversations st; messages := messages st |}.

Definition with_conversations (cs : list Conversation.t) (st : Store) : Store :=
  {| products := products st; offers := offers st;
     conversations := cs; messages := messages st |}.

Definition with_messages (ms : list Message.t) (st : Store) : Store :=
  {| products := products st; offers := offers st;
     conversations := conversations st; messages := ms |}.

(** What the notification sink does during a request. *)
Inductive Sink := sink_up | conversation_fails | message_fails.

#[global] Instance Sink_eq_dec : EqDecision Sink.
Proof. solve_decision. Defined.

Record Env := {
  now : Z;
  sink : Sink
}.

(** ** Responses *)

Record Stats := {
  st_pending : nat;
  st_accepted : nat;
  st_declined : nat;
  st_expired : nat
}.

Inductive Response :=
| Error (code : nat) (error : string)
| Created (offer : Offer.t) (autoResponse : option AutoResponse)
| Success (offer : Offer.t) (message : string)
| Listed (found : list Offer.t) (stats : Stats).

(** ** The handler monad: state, early response, exception *)

Inductive Outcome (A : Type) :=
| Value (a : A)
| Reply (code : nat) (error : string)
| Thrown (e : string).
Arguments Value {A} a.
Arguments Reply {A} code error.
Arguments Thrown {A} e.

Definition M (A : Type) : Type := Store → Outcome A * Store.

#[global] Instance M_ret : MRet M := λ A a st, (Value a, st).

#[global] Instance M_bind : MBind M := λ A B k m st,
  match m st with
  | (Value a, st') => k a st'
  | (Reply code error, st') => (Reply code error, st')
  | (Thrown e, st') => (Thrown e, st')
  end.

(** [return res.status(code).json({ error })] *)
Definition reply {A} (code : nat) (error : string) : M A :=
  λ st, (Reply code error, st).

Definition throw {A} (e : string) : M A := λ st, (Thrown e, st).

Definition get : M Store := λ st, (Value st, st).

Definition modify (f : Store → Store) : M unit := λ st, (Value tt, f st).

(** [try { ... } catch (error) { console.error(...);
    res.status(500).json({ error }) }] *)
Definition route (onError : string) (m : M Response) (st : Store) : Response * Store :=
  match m st with
  | (Value r, st') => (r, st')
  | (Reply code error, st') => (Error code error, st')
  | (Thrown _, st') => (Error 500 onError, st')
  end.

(** ** Collection operations (the Mongoose calls the handlers make) *)

(** [Product.findById(id)] *)
Definition Product_findById (id : Id) : M (option Product.t) :=
  st ← get; mret (products st !! id).

(** [listing.save()], for the document of id [id] *)
Definition Product_save (id : Id) (p : Product.t) : M unit :=
  if Product.validate p
  then modify (λ st, with_products (<[id := p]> (products st)) st)
  else throw "ValidationError".

(** [Offer.findById(id)] *)
Definition Offer_findById (id : Id) : M (option Offer.doc) :=
  st ← get;
  mret (Offer.loaded <$> List.find (λ o, bool_decide (Offer._id o = id)) (offers st)).

(** [Offer.findOne(query)]: the first document of the collection that
    matches. *)
Definition Offer_findOne (query : Offer.t → bool) : M (option Offer.doc) :=
  st ← get; mret (Offer.loaded <$> List.find query (offers st)).

Definition newest_first (a b : Offer.t) : Prop := Offer.createdAt b ≤ Offer.createdAt a.

#[global] Instance newest_first_dec a b : Decision (newest_first a b).
Proof. unfold newest_first. apply _. Defined.



(** The write of [offer.save()]: a new document is appended, a loaded one
    replaces the stored document of the same id. *)
Definition write_offer (isNew : bool) (o : Offer.t) (os : list Offer.t) : list Offer.t :=
  if isNew then os ++ [o]
  else (λ x, if bool_decide (Offer._id x = Offer._id o) then o else x) <$> os.

(** [offer.save()]: validation, then the [pre('save')] hook, then the
    write. *)
Definition Offer_save (env : Env) (d : Offer.doc) : M Offer.doc :=
  if Offer.validate (Offer.val d) then
    let o := Offer.written (now env) d in
    modify (λ st, with_offers (write_offer (Offer.isNew d) o (offers st)) st) ;;
    mret (Offer.loaded o)
  else throw "ValidationError".

(** [Offer.updateMany(filter, update)]: a direct update of the collection;
    document middleware ([pre('save')]) does not run. *)
Definition Offer_updateMany (filter : Offer.t → bool) (update : Offer.t → Offer.t) : M unit :=
  modify (λ st, with_offers ((λ o, if filter o then update o else o) <$> offers st) st).

(** [conversationSchema.statics.findOrCreate] *)
Definition Conversation_findOrCreate (env : Env) (participantIds : list Id)
    (listingId : Id) : M Conversation.t :=
  if bool_decide (sink env = conversation_fails) then throw "MongoError" else
  st ← get;
  match List.find
          (λ c, forallb (λ p, bool_decide (p ∈ Conversation.participants c)) participantIds
                && bool_decide (Conversation.listing c = listingId))
          (conversations st) with
  | Some conversation => mret conversation
  | None =>
      let conversation :=
        {| Conversation._id := fresh (Conversation._id <$> conversations st);
           Conversation.participants := participantIds;
           Conversation.listing := listingId |} in
      modify (λ st, with_conversations (conversations st ++ [conversation]) st) ;;
      mret conversation
  end.

(** [Message.create({...})] *)
Definition Message_create (env : Env) (m : Message.t) : M unit :=
  if bool_decide (sink env = message_fails) then throw "MongoError"
  else if Message.validate m
  then modify (λ st, with_messages (messages st ++ [m]) st)
  else throw "ValidationError".


Definition day_ms : Z := 24 * (1000 * 60 * 60).
Definition hour_ms : Z := 1000 * 60 * 60.

(** [Math.ceil(24 - hoursSinceOffer)] for an offer created [ms]
    milliseconds ago: both sides are exact on whole milliseconds. *)
Definition wait_hours (ms : Z) : Z := - ((ms - day_ms) / hour_ms).

(** ** routes/offers.js *)

(** [POST /api/offers]: create an offer. *)
Definition POST_offers (env : Env) (user : Id) (listingId : Id) (offerAmount : Z)
    (message : option string) : Store → Response * Store :=
  route "Failed to create offer" (
    let buyerId := user in
    listing ← Product_findById listingId;
    match listing with
    | None => reply 404 "Listing not found"
    | Some listing =>
      if negb (bool_decide (Product.status listing = Product.available))
      then reply 400 "Listing is no longer available"
      else if negb (Product.acceptsOffers listing)
      then reply 400 "This listing does not accept offers"
      else if bool_decide (Product.seller listing = buyerId)
      then reply 400 "You cannot make an offer on your own listing"
      else
        existingOffer ← Offer_findOne (λ o,
          bool_decide (Offer.listing o = listingId) &&
          bool_decide (Offer.buyer o = buyerId) &&
          bool_decide (Offer.status o = pending));
        match existingOffer with
        | Some existingOffer =>
            let ms := now env - Offer.createdAt (Offer.val existingOffer) in
            if bool_decide (ms < day_ms)
            then reply 400 ("Please wait " +:+ pretty (wait_hours ms) +:+
                            " more hours before making another offer")
            else Offer_save env (Offer.assign_status withdrawn existingOffer) ;; mret ()
        | None => mret ()
        end ;;
        st ← get;
        let offer :=
          Offer.new (now env) (fresh (Offer._id <$> offers st)) listingId buyerId
            (Product.seller listing) offerAmount (Product.price listing) message
            (Product.autoAcceptPrice listing) (Product.minimumOffer listing) in
        let autoResponse := Offer.checkAutoResponse (Offer.val offer) in
        offer ←
          match autoResponse with
          | Some auto_accept =>
              let offer := Offer.assign_acceptedAt (now env)
                             (Offer.assign_status accepted offer) in
              Product_save listingId (Product.sell buyerId offerAmount None listing) ;;
              conversation ← Conversation_findOrCreate env
                               [buyerId; Product.seller listing] listingId;
              Message_create env
                {| Message.conversation := Conversation._id conversation;
                   Message.sender := Product.seller listing;
                   Message.receiver := buyerId;
                   Message.listing := listingId;
                   Message.message :=
                     "Great news! Your offer of $" +:+ pretty offerAmount +:+
                     " has been automatically accepted. Please proceed with payment.";
                   Message.isOffer := true;
                   Message.offerDetails :=
                     {| offerId := Offer._id (Offer.val offer);
                        amount := offerAmount; od_action := "accepted" |} |} ;;
              mret offer
          | Some auto_decline =>
              let offer := Offer.assign_declinedAt (now env)
                             (Offer.assign_status declined offer) in
              conversation ← Conversation_findOrCreate env
                               [buyerId; Product.seller listing] listingId;
              Message_create env
                {| Message.conversation := Conversation._id conversation;
                   Message.sender := Product.seller listing;
                   Message.receiver := buyerId;
                   Message.listing := listingId;
                   Message.message :=
                     "Your offer of $" +:+ pretty offerAmount +:+
                     " is below the minimum acceptable price for this item.";
                   Message.isOffer := true;
                   Message.offerDetails :=
                     {| offerId := Offer._id (Offer.val offer);
                        amount := offerAmount; od_action := "declined" |} |} ;;
              mret offer
          | None =>
              conversation ← Conversation_findOrCreate env
                               [buyerId; Product.seller listing] listingId;
              Message_create env
                {| Message.conversation := Conversation._id conversation;
                   Message.sender := buyerId;
                   Message.receiver := Product.seller listing;
                   Message.listing := listingId;
                   Message.message :=
                     or_else message
                       ("Offer of $" +:+ pretty offerAmount +:+ " for " +:+
                        Product.title listing);
                   Message.isOffer := true;
                   Message.offerDetails :=
                     {| offerId := Offer._id (Offer.val offer);
                        amount := offerAmount; od_action := "created" |} |} ;;
              mret offer
          end;
        offer ← Offer_save env offer;
        mret (Created (Offer.val offer) autoResponse)
    end).



(** [PUT /api/offers/:id/accept] *)
Definition PUT_accept (env : Env) (user : Id) (id : Id) : Store → Response * Store :=
  route "Failed to accept offer" (
    offer ← Offer_findById id;
    match offer with
    | None => reply 404 "Offer not found"
    | Some offer =>
      populated ← Product_findById (Offer.listing (Offer.val offer));
      if negb (bool_decide (Offer.seller (Offer.val offer) = user))
      then reply 403 "Not authorized"
      else if negb (bool_decide (Offer.status (Offer.val offer) = pending))
      then reply 400 "Offer is no longer pending"
      else if Offer.isExpired (now env) (Offer.val offer)
      then Offer_save env (Offer.assign_status expired offer) ;;
           reply 400 "Offer has expired"
      else
        offer ← Offer_save env (Offer.assign_acceptedAt (now env)
                                  (Offer.assign_status accepted offer));
        let offer := Offer.val offer in
        match populated with
        | None => throw "TypeError"
        | Some listing =>
          let listing_id := Offer.listing offer in
          let listing := Product.sell (Offer.buyer offer) (Offer.offerAmount offer)
                           (Some (now env)) listing in
          Product_save listing_id listing ;;
          Offer_updateMany
            (λ o, bool_decide (Offer.listing o = listing_id) &&
                  bool_decide (Offer.status o = pending) &&
                  negb (bool_decide (Offer._id o = Offer._id offer)))
            (λ o, Offer.stamp false (now env)
                    (Offer.set_declinedAt (now env) (Offer.set_status declined o))) ;;
          conversation ← Conversation_findOrCreate env
                           [Offer.buyer offer; Offer.seller offer] listing_id;
          Message_create env
            {| Message.conversation := Conversation._id conversation;
               Message.sender := Offer.seller offer;
               Message.receiver := Offer.buyer offer;
               Message.listing := listing_id;
               Message.message :=
                 "Congratulations! Your offer of $" +:+ pretty (Offer.offerAmount offer) +:+
                 " has been accepted. Please proceed with payment to complete the purchase.";
               Message.isOffer := true;
               Message.offerDetails :=
                 {| offerId := Offer._id offer; amount := Offer.offerAmount offer;
                    od_action := "accepted" |} |} ;;
          mret (Success offer "Offer accepted successfully")
        end
    end).


(** [PUT /api/offers/:id/counter] *)
Definition PUT_counter (env : Env) (user : Id) (id : Id) (counterAmount : Z)
    (counterMessage : option string) : Store → Response * Store :=
  route "Failed to counter offer" (
    offer ← Offer_findById id;
    match offer with
    | None => reply 404 "Offer not found"
    | Some offer =>
      populated ← Product_findById (Offer.listing (Offer.val offer));
      if negb (bool_decide (Offer.seller (Offer.val offer) = user))
      then reply 403 "Not authorized"
      else if negb (bool_decide (Offer.status (Offer.val offer) = pending))
      then reply 400 "Offer is no longer pending"
      else if bool_decide (counterAmount ≤ Offer.offerAmount (Offer.val offer))
      then reply 400 "Counter offer must be higher than the original offer"
      else if bool_decide (Offer.originalPrice (Offer.val offer) < counterAmount)
      then reply 400 "Counter offer cannot exceed the listing price"
      else
        offer ← Offer_save env
                  (Offer.assign_expiresAt (now env + hours48)
                     (Offer.assign_counterOffer
                        {| co_amount := counterAmount;
                           co_message := counterMessage;
                           co_timestamp := now env |}
                        (Offer.assign_status countered offer)));
        let offer := Offer.val offer in
        match populated with
        | None => throw "TypeError"
        | Some listing =>
          let listing_id := Offer.listing offer in
          conversation ← Conversation_findOrCreate env
                           [Offer.buyer offer; Offer.seller offer] listing_id;
          Message_create env
            {| Message.conversation := Conversation._id conversation;
               Message.sender := Offer.seller offer;
               Message.receiver := Offer.buyer offer;
               Message.listing := listing_id;
               Message.message :=
                 "Counter offer: $" +:+ pretty counterAmount +:+ ". " +:+
                 or_else counterMessage EmptyString;
               Message.isOffer := true;
               Message.offerDetails :=
                 {| offerId := Offer._id offer; amount := counterAmount;
                    od_action := "countered" |} |} ;;
          mret (Success offer "Counter offer sent")
        end
    end).



(** ** server.js: the hourly job that expires offers *)


(** ** Requests and steps of the system *)




(** ** Notions used by the statements *)

(** The stored offer of id [id]. *)
Definition stored (id : Id) (st : Store) : option Offer.t :=
  List.find (λ o, bool_decide (Offer._id o = id)) (offers st).

(** A computation that writes to the notification sink only. *)
Definition notification_only {A} (m : M A) : Prop :=
  ∀ st, offers (snd (m st)) = offers st ∧ products (snd (m st)) = products st.

(** What the create handler does to the fresh document for each
    auto-response. *)
Definition responded (now : Z) (r : option AutoResponse) (d : Offer.doc) : Offer.doc :=
  match r with
  | Some auto_accept => Offer.assign_acceptedAt now (Offer.assign_status accepted d)
  | Some auto_decline => Offer.assign_declinedAt now (Offer.assign_status declined d)
  | None => d
  end.







(** A Hoare triple on the offer collection: from a collection satisfying
    [P], a run that ends with a value [a] leaves one satisfying [Q a], and a
    run that ends with an early reply or an exception leaves one satisfying
    [I]. *)
Definition hoare {A} (I P : list Offer.t → Prop) (m : M A)
    (Q : A → list Offer.t → Prop) : Prop :=
  ∀ st, P (offers st) →
        match m st with
        | (Value a, st') => Q a (offers st')
        | (_, st') => I (offers st')
        end.

(** ** Example stores *)

Module Example.

(** A listing of price 100 by seller 10, with the given thresholds. *)
Definition shoes (minimumOffer autoAcceptPrice : option Z) : Product.t :=
  {| Product.title := "Climbing shoes";
     Product.seller := 10%nat;
     Product.price := 100;
     Product.acceptsOffers := true;
     Product.minimumOffer := minimumOffer;
     Product.autoAcceptPrice := autoAcceptPrice;
     Product.status := Product.available;
     Product.soldTo := None;
     Product.soldPrice := None;
     Product.soldAt := None |}.

(** A store with that listing, of id 1, and nothing else. *)
Definition shop (minimumOffer autoAcceptPrice : option Z) : Store :=
  {| products := {[ 1%nat := shoes minimumOffer autoAcceptPrice ]};
     offers := []; conversations := []; messages := [] |}.

Definition at_time (t : Z) : Env := {| now := t; sink := sink_up |}.


(** Buyer 20 has offered 60 on the listing without thresholds: offer 0,
    pending. *)
Definition one_offer : Store :=
  snd (POST_offers (at_time 1000) 20 1 60 None (shop None None)).

(** Buyer 21 has offered 70 as well: offer 1, pending. *)
Definition two_offers : Store :=
  snd (POST_offers (at_time 2000) 21 1 70 None one_offer).


End Example.

(** * Properties *)

(** ** Running the monad *)

Lemma run_bind {A B} (m : M A) (k : A → M B) st :
  (m ≫= k) st = match m st with
                | (Value a, st') => k a st'
                | (Reply code error, st') => (Reply code error, st')
                | (Thrown e, st') => (Thrown e, st')
                end.
Proof. reflexivity. Qed.

Lemma run_bind_value {A B} (m : M A) (k : A → M B) st a st' :
  m st = (Value a, st') → (m ≫= k) st = k a st'.
Proof. intros H. rewrite run_bind, H. reflexivity. Qed.

Lemma snd_route onError m st : snd (route onError m st) = snd (m st).
Proof. unfold route. destruct (m st) as [[r|c e|e] st']; reflexivity. Qed.

Lemma Offer_findById_run id st :
  Offer_findById id st =
  (Value (Offer.loaded <$> List.find (λ o, bool_decide (Offer._id o = id)) (offers st)), st).
Proof. reflexivity. Qed.

Lemma Offer_findOne_run query st :
  Offer_findOne query st = (Value (Offer.loaded <$> List.find query (offers st)), st).
Proof. reflexivity. Qed.

Lemma Product_findById_run id st :
  Product_findById id st = (Value (products st !! id), st).
Proof. reflexivity. Qed.

Lemma Offer_save_run env d st :
  Offer.validate (Offer.val d) = true →
  Offer_save env d st =
  (Value (Offer.loaded (Offer.written (now env) d)),
   with_offers (write_offer (Offer.isNew d) (Offer.written (now env) d) (offers st)) st).
Proof. intros Hv. unfold Offer_save. rewrite Hv. reflexivity. Qed.

Lemma Offer_save_invalid env d st :
  Offer.validate (Offer.val d) = false →
  Offer_save env d st = (Thrown "ValidationError", st).
Proof. intros Hv. unfold Offer_save. rewrite Hv. reflexivity. Qed.

Lemma Product_save_run id p st :
  Product.validate p = true →
  Product_save id p st = (Value (), with_products (<[id := p]> (products st)) st).
Proof. intros Hv. unfold Product_save. rewrite Hv. reflexivity. Qed.

Lemma Offer_updateMany_run filter update st :
  Offer_updateMany filter update st =
  (Value (), with_offers ((λ o, if filter o then update o else o) <$> offers st) st).
Proof. reflexivity. Qed.

(** ** What a save writes *)

Lemma validate_assign_status s d :
  Offer.validate (Offer.val (Offer.assign_status s d)) = Offer.validate (Offer.val d).
Proof. reflexivity. Qed.

Lemma isModified_assign_status s o :
  Offer.status o ≠ s →
  Offer.isModified "status" (Offer.assign_status s (Offer.loaded o)) = true.
Proof.
  intros Hne. unfold Offer.isModified, Offer.assign_status, Offer.assign.
  cbn [Offer.val Offer.loaded Offer.isNew Offer.modified orb].
  rewrite (bool_decide_false _ Hne). cbn [negb].
  apply bool_decide_true. left.
Qed.

Lemma find_write_offer id o o' os :
  List.find (λ x, bool_decide (Offer._id x = id)) os = Some o →
  Offer._id o' = id →
  List.find (λ x, bool_decide (Offer._id x = id)) (write_offer false o' os) = Some o'.
Proof.
  intros Hf <-. unfold write_offer.
  induction os as [|x os IH]; [discriminate|].
  rewrite fmap_cons. cbn [List.find] in *.
  destruct (bool_decide (Offer._id x = Offer._id o')) eqn:Hx.
  - cbn [List.find]. rewrite bool_decide_true by done. reflexivity.
  - cbn [List.find]. rewrite Hx. apply IH, Hf.
Qed.

Lemma find_by_id_Some id os o :
  List.find (λ x, bool_decide (Offer._id x = id)) os = Some o → Offer._id o = id.
Proof.
  intros H. apply find_some in H as [_ H]. by apply bool_decide_eq_true in H.
Qed.

Section written.
Context (now : Z) (d : Offer.doc).

Lemma written_status : Offer.status (Offer.written now d) = Offer.status (Offer.val d).
Proof. unfold Offer.written, Offer.pre_save. destruct (Offer.isModified _ d); reflexivity. Qed.

Lemma written_id : Offer._id (Offer.written now d) = Offer._id (Offer.val d).
Proof. unfold Offer.written, Offer.pre_save. destruct (Offer.isModified _ d); reflexivity. Qed.

Lemma written_listing : Offer.listing (Offer.written now d) = Offer.listing (Offer.val d).
Proof. unfold Offer.written, Offer.pre_save. destruct (Offer.isModified _ d); reflexivity. Qed.

Lemma written_buyer : Offer.buyer (Offer.written now d) = Offer.buyer (Offer.val d).
Proof. unfold Offer.written, Offer.pre_save. destruct (Offer.isModified _ d); reflexivity. Qed.

Lemma written_seller : Offer.seller (Offer.written now d) = Offer.seller (Offer.val d).
Proof. unfold Offer.written, Offer.pre_save. destruct (Offer.isModified _ d); reflexivity. Qed.

Lemma written_offerAmount :
  Offer.offerAmount (Offer.written now d) = Offer.offerAmount (Offer.val d).
Proof. unfold Offer.written, Offer.pre_save. destruct (Offer.isModified _ d); reflexivity. Qed.




(** The hook appends one entry, whose action is the new status, exactly
    when the status path is marked modified. *)
Lemma written_history :
  Offer.history (Offer.written now d) =
  if Offer.isModified "status" d
  then Offer.history (Offer.val d) ++
       [{| action := status_str (Offer.status (Offer.val d));
           h_amount := if bool_decide (Offer.status (Offer.val d) = countered)
                       then co_amount <$> Offer.counterOffer (Offer.val d)
                       else Some (Offer.offerAmount (Offer.val d));
           h_message := if bool_decide (Offer.status (Offer.val d) = countered)
                        then Offer.counterOffer (Offer.val d) ≫= co_message
                        else Offer.message (Offer.val d);
           h_timestamp := now;
           h_by := if bool_decide (Offer.status (Offer.val d) = countered)
                   then Offer.seller (Offer.val d) else Offer.buyer (Offer.val d) |}]
  else Offer.history (Offer.val d).
Proof. unfold Offer.written, Offer.pre_save. destruct (Offer.isModified _ d); reflexivity. Qed.
End written.

Lemma isModified_assign path q changed f d :
  Offer.isModified path d = true →
  Offer.isModified path (Offer.assign q changed f d) = true.
Proof.
  unfold Offer.isModified, Offer.assign. cbn [Offer.modified].
  intros H%bool_decide_eq_true. apply bool_decide_eq_true.
  destruct (Offer.isNew d || changed); [by right|done].
Qed.

(** ** The notification sink does not touch offers or products *)

Lemma notification_only_ret {A} (a : A) : notification_only (mret a).
Proof. intros st. split; reflexivity. Qed.

Lemma notification_only_bind {A B} (m : M A) (k : A → M B) :
  notification_only m → (∀ a, notification_only (k a)) → notification_only (m ≫= k).
Proof.
  intros Hm Hk st. rewrite run_bind. specialize (Hm st).
  destruct (m st) as [[a|c e|e] st1]; cbn [snd] in *; [|done..].
  destruct (Hk a st1) as [-> ->]. done.
Qed.

Lemma notification_only_findOrCreate env ps l :
  notification_only (Conversation_findOrCreate env ps l).
Proof.
  intros st. unfold Conversation_findOrCreate.
  destruct (bool_decide (sink env = conversation_fails)); [done|].
  rewrite run_bind. unfold get.
  destruct (List.find _ (conversations st)); done.
Qed.

Lemma notification_only_Message_create env m : notification_only (Message_create env m).
Proof.
  intros st. unfold Message_create.
  destruct (bool_decide (sink env = message_fails)); [done|].
  destruct (Message.validate m); done.
Qed.

(** ** The writes of an accept on the offer collection *)

Lemma lookup_write_offer_ne o' os i (x : Offer.t) :
  os !! i = Some x → Offer._id x ≠ Offer._id o' →
  write_offer false o' os !! i = Some x.
Proof.
  intros Hi Hne. unfold write_offer. rewrite list_lookup_fmap, Hi.
  cbn [fmap option_fmap option_map]. by rewrite bool_decide_false.
Qed.

Lemma elem_of_write_offer o' os (x : Offer.t) :
  x ∈ write_offer false o' os → x = o' ∨ (x ∈ os ∧ Offer._id x ≠ Offer._id o').
Proof.
  unfold write_offer. intros (y & -> & Hy)%list_elem_of_fmap.
  case_bool_decide; [by left|right; done].
Qed.

Lemma find_fmap_by_id id (g : Offer.t → Offer.t) os o :
  (∀ y, Offer._id (g y) = Offer._id y) →
  List.find (λ x, bool_decide (Offer._id x = id)) os = Some o →
  List.find (λ x, bool_decide (Offer._id x = id)) (g <$> os) = Some (g o).
Proof.
  intros Hg. induction os as [|y ys IH]; [discriminate|].
  rewrite fmap_cons. cbn [List.find]. rewrite Hg.
  destruct (bool_decide (Offer._id y = id)); [by intros [= ->]|exact IH].
Qed.

(** ** The sink when it is down *)

Lemma findOrCreate_fails env ps l st :
  sink env = conversation_fails →
  Conversation_findOrCreate env ps l st = (Thrown "MongoError", st).
Proof. intros H. unfold Conversation_findOrCreate. rewrite H. reflexivity. Qed.

Lemma findOrCreate_value env ps l st :
  sink env ≠ conversation_fails →
  ∃ c st', Conversation_findOrCreate env ps l st = (Value c, st') ∧
           offers st' = offers st ∧ products st' = products st ∧
           messages st' = messages st.
Proof.
  intros H. unfold Conversation_findOrCreate.
  rewrite (bool_decide_false _ H), run_bind. unfold get.
  destruct (List.find _ (conversations st)); eexists _, _; (split; [reflexivity|done]).
Qed.

Lemma Message_create_fails env m st :
  sink env = message_fails → Message_create env m st = (Thrown "MongoError", st).
Proof. intros H. unfold Message_create. rewrite H. reflexivity. Qed.

Lemma notification_throws {A} env ps l (msg : Conversation.t → Message.t)
    (k : unit → M A) st :
  sink env ≠ sink_up →
  ∃ e st', (Conversation_findOrCreate env ps l ≫= λ c, Message_create env (msg c) ≫= k) st
           = (Thrown e, st') ∧
           offers st' = offers st ∧ products st' = products st ∧
           messages st' = messages st.
Proof.
  intros Hdown. destruct (decide (sink env = conversation_fails)) as [Hc|Hc].
  - rewrite run_bind, findOrCreate_fails by done. by eexists _, _.
  - destruct (findOrCreate_value env ps l st Hc) as (c & st' & Heq & Ho & Hp & Hm).
    rewrite run_bind, Heq, run_bind, Message_create_fails by (by destruct (sink env)).
    by eexists _, _.
Qed.

Lemma notification_only_notify {A} env ps l (msg : Conversation.t → Message.t) (r : A) :
  notification_only (Conversation_findOrCreate env ps l ≫= λ c,
                     Message_create env (msg c) ≫= λ _, mret r).
Proof.
  apply notification_only_bind; [apply notification_only_findOrCreate|].
  intros c. apply notification_only_bind; [apply notification_only_Message_create|].
  intros []. apply notification_only_ret.
Qed.

(** ** The seller's accept, run up to the notification *)

Lemma accept_run env user id st o l :
  stored id st = Some o →
  Offer.seller o = user →
  Offer.status o = pending →
  ¬ Offer.expiresAt o < now env →
  Offer.validate o = true →
  products st !! Offer.listing o = Some l →
  Product.validate l = true →
  let oa := Offer.written (now env)
              (Offer.assign_acceptedAt (now env)
                 (Offer.assign_status accepted (Offer.loaded o))) in
  let filt := λ x : Offer.t,
         bool_decide (Offer.listing x = Offer.listing o) &&
         bool_decide (Offer.status x = pending) &&
         negb (bool_decide (Offer._id x = id)) in
  let upd := λ x : Offer.t, Offer.stamp false (now env)
                (Offer.set_declinedAt (now env) (Offer.set_status declined x)) in
  ∃ m : M Response,
    notification_only m ∧
    (sink env ≠ sink_up → ∀ s, ∃ e s', m s = (Thrown e, s') ∧ messages s' = messages s) ∧
    PUT_accept env user id st =
    route "Failed to accept offer" m
      (with_offers ((λ x, if filt x then upd x else x) <$> write_offer false oa (offers st))
         (with_products
            (<[Offer.listing o := Product.sell (Offer.buyer o) (Offer.offerAmount o)
                                    (Some (now env)) l]> (products st))
            (with_offers (write_offer false oa (offers st)) st))).
Proof.
  intros Hf Hs Hp He Hv Hl Hlv oa filt upd. unfold stored in *.
  pose proof (find_by_id_Some _ _ _ Hf) as Hid.
  assert (Hoa_id : Offer._id oa = id) by (unfold oa; rewrite written_id; exact Hid).
  assert (Hoa_l : Offer.listing oa = Offer.listing o) by (unfold oa; rewrite written_listing; done).
  assert (Hoa_b : Offer.buyer oa = Offer.buyer o) by (unfold oa; rewrite written_buyer; done).
  assert (Hoa_a : Offer.offerAmount oa = Offer.offerAmount o)
    by (unfold oa; rewrite written_offerAmount; done).
  eexists. split; [|split]; cycle 2.
  - unfold PUT_accept, route.
    rewrite run_bind, Offer_findById_run, Hf.
    cbn [fmap option_fmap option_map].
    rewrite run_bind, Product_findById_run.
    cbn [Offer.val Offer.loaded].
    rewrite (bool_decide_true _ Hs), (bool_decide_true _ Hp).
    cbn [negb].
    assert (Hx : Offer.isExpired (now env) o = false).
    { unfold Offer.isExpired. rewrite (bool_decide_false _ He). apply andb_false_r. }
    rewrite Hx, run_bind, Offer_save_run by exact Hv.
    fold oa. rewrite Hl.
    cbn [Offer.val Offer.loaded].
    rewrite run_bind, Product_save_run by exact Hlv.
    rewrite run_bind, Offer_updateMany_run.
    rewrite Hoa_l, Hoa_id, Hoa_b, Hoa_a.
    cbn [offers with_offers with_products products].
    change (Offer.isNew (Offer.assign_acceptedAt _ _)) with false.
    reflexivity.
  - apply notification_only_notify.
  - intros Hdown s.
    edestruct (@notification_throws Response env) as (e & s' & Heq & _ & _ & Hm); [exact Hdown|].
    eexists _, _. split; [exact Heq|exact Hm].
Qed.


(** ** The counter and the buyer's acceptance of it, run to the end *)




(** ** Inversion of a successful run *)

Lemma route_Created onError m st o r st' :
  route onError m st = (Created o r, st') → m st = (Value (Created o r), st').
Proof.
  unfold route. destruct (m st) as [[a|c e|e] s]; intros [= <- <-]; reflexivity.
Qed.

Lemma bind_Value_inv {A B} (m : M A) (k : A → M B) st b st' :
  (m ≫= k) st = (Value b, st') →
  ∃ a st1, m st = (Value a, st1) ∧ k a st1 = (Value b, st').
Proof.
  rewrite run_bind. destruct (m st) as [[a|c e|e] s]; [|discriminate..].
  intros H. by exists a, s.
Qed.

Lemma Offer_save_Value env d st d' st' :
  Offer_save env d st = (Value d', st') →
  Offer.validate (Offer.val d) = true ∧
  d' = Offer.loaded (Offer.written (now env) d) ∧
  st' = with_offers (write_offer (Offer.isNew d) (Offer.written (now env) d) (offers st)) st.
Proof.
  destruct (Offer.validate (Offer.val d)) eqn:Hv.
  - rewrite Offer_save_run by done. by intros [= <- <-].
  - rewrite Offer_save_invalid by done. discriminate.
Qed.

Lemma Product_save_Value id p st u st' :
  Product_save id p st = (Value u, st') →
  Product.validate p = true ∧ st' = with_products (<[id := p]> (products st)) st.
Proof.
  unfold Product_save. destruct (Product.validate p); [|discriminate].
  unfold modify. by intros [= <- <-].
Qed.

Lemma notification_only_Value {A} (m : M A) st a st' :
  notification_only m → m st = (Value a, st') →
  offers st' = offers st ∧ products st' = products st.
Proof. intros Hm Heq. specialize (Hm st). rewrite Heq in Hm. exact Hm. Qed.

(** Every successful creation, taken apart: the listing passed the
    guards; a pending offer of the same buyer on the listing, if there was
    one, was at least 24 hours old and has been written back as
    'withdrawn'; the new document got the auto-response of its thresholds
    and was appended. *)
Lemma create_inv env user listingId offerAmount message st o r st' :
  POST_offers env user listingId offerAmount message st = (Created o r, st') →
  ∃ l os1,
    products st !! listingId = Some l ∧
    Product.status l = Product.available ∧
    Product.acceptsOffers l = true ∧
    Product.seller l ≠ user ∧
    match List.find (λ x, bool_decide (Offer.listing x = listingId) &&
                          bool_decide (Offer.buyer x = user) &&
                          bool_decide (Offer.status x = pending)) (offers st) with
    | Some e =>
        day_ms ≤ now env - Offer.createdAt e ∧
        os1 = write_offer false
                (Offer.written (now env) (Offer.assign_status withdrawn (Offer.loaded e)))
                (offers st)
    | None => os1 = offers st
    end ∧
    let d := Offer.new (now env) (fresh (Offer._id <$> os1)) listingId user
               (Product.seller l) offerAmount (Product.price l) message
               (Product.autoAcceptPrice l) (Product.minimumOffer l) in
    r = Offer.checkAutoResponse (Offer.val d) ∧
    Offer.validate (Offer.val d) = true ∧
    o = Offer.written (now env) (responded (now env) r d) ∧
    offers st' = os1 ++ [o] ∧
    products st' =
      match r with
      | Some auto_accept =>
          <[listingId := Product.sell user offerAmount None l]> (products st)
      | _ => products st
      end.
Proof.
  intros H. apply route_Created in H.
  apply bind_Value_inv in H as (listing & s0 & Hl & H).
  rewrite Product_findById_run in Hl. injection Hl as <- <-.
  destruct (products st !! listingId) as [l|] eqn:Hl; [|discriminate].
  destruct (bool_decide (Product.status l = Product.available)) eqn:Hav;
    cbn [negb] in H; [|discriminate].
  destruct (Product.acceptsOffers l) eqn:Hacc; cbn [negb] in H; [|discriminate].
  destruct (bool_decide (Product.seller l = user)) eqn:Hself; [discriminate|].
  apply bool_decide_eq_true in Hav. apply bool_decide_eq_false in Hself.
  apply bind_Value_inv in H as (existing & s0 & He & H).
  rewrite Offer_findOne_run in He. injection He as <- <-.
  apply bind_Value_inv in H as ([] & s1 & Hexist & H).
  apply bind_Value_inv in H as (sread & s1' & Hget & H).
  unfold get in Hget. injection Hget as <- <-.
  cbv zeta in H.
  apply bind_Value_inv in H as (d & s2 & Hbranch & H).
  apply bind_Value_inv in H as (d' & s3 & Hsave & H).
  unfold mret, M_ret in H. injection H as <- <- <-.
  apply Offer_save_Value in Hsave as (Hv & -> & ->).
  exists l, (offers s1).
  split; [reflexivity|]. split; [done|]. split; [done|]. split; [done|].
  split.
  { destruct (List.find _ (offers st)) as [e|]; cbn [fmap option_fmap option_map] in Hexist.
    - cbn [Offer.val Offer.loaded] in Hexist.
      destruct (bool_decide (now env - Offer.createdAt e < day_ms)) eqn:Hlt; [discriminate|].
      apply bool_decide_eq_false in Hlt.
      apply bind_Value_inv in Hexist as (dw & sw & Hw & Hret).
      unfold mret, M_ret in Hret. injection Hret as <-.
      apply Offer_save_Value in Hw as (_ & _ & ->).
      split; [lia|reflexivity].
    - unfold mret, M_ret in Hexist. by injection Hexist as <-. }
  assert (Hps1 : products s1 = products st).
  { destruct (List.find _ (offers st)) as [e|]; cbn [fmap option_fmap option_map] in Hexist.
    - cbn [Offer.val Offer.loaded] in Hexist.
      destruct (bool_decide (now env - Offer.createdAt e < day_ms)); [discriminate|].
      apply bind_Value_inv in Hexist as (dw & sw & Hw & Hret).
      unfold mret, M_ret in Hret. injection Hret as <-.
      apply Offer_save_Value in Hw as (_ & _ & ->). reflexivity.
    - unfold mret, M_ret in Hexist. by injection Hexist as <-. }
  cbv zeta. split; [reflexivity|].
  set (d0 := Offer.new _ _ _ _ _ _ _ _ _ _) in *.
  repeat match goal with
         | |- context [Offer.checkAutoResponse (Offer.Build_t ?a ?b ?c ?d ?e ?f ?g ?h ?i ?j ?k ?m ?n ?p ?q ?r ?s)] =>
             change (Offer.Build_t a b c d e f g h i j k m n p q r s) with (Offer.val d0)
         | H : context [Offer.checkAutoResponse (Offer.Build_t ?a ?b ?c ?d ?e ?f ?g ?h ?i ?j ?k ?m ?n ?p ?q ?r ?s)] |- _ =>
             change (Offer.Build_t a b c d e f g h i j k m n p q r s) with (Offer.val d0) in H
         end.
  destruct (Offer.checkAutoResponse (Offer.val d0)) as [[|]|] eqn:Har.
  - apply bind_Value_inv in Hbranch as ([] & sp & Hp & Hbranch).
    apply Product_save_Value in Hp as (_ & ->).
    apply bind_Value_inv in Hbranch as (c & sc & Hc & Hbranch).
    apply (notification_only_Value _ _ _ _ (notification_only_findOrCreate _ _ _)) in Hc
      as [Hco Hcp].
    apply bind_Value_inv in Hbranch as ([] & sm & Hm & Hbranch).
    apply (notification_only_Value _ _ _ _ (notification_only_Message_create _ _)) in Hm
      as [Hmo Hmp].
    unfold mret, M_ret in Hbranch. injection Hbranch as <- <-.
    cbn [offers products with_offers with_products] in Hco, Hcp, Hmo, Hmp |- *.
    split; [exact Hv|]. split; [reflexivity|].
    split; [by rewrite Hmo, Hco|].
    by rewrite Hmp, Hcp, Hps1.
  - apply bind_Value_inv in Hbranch as (c & sc & Hc & Hbranch).
    apply (notification_only_Value _ _ _ _ (notification_only_findOrCreate _ _ _)) in Hc
      as [Hco Hcp].
    apply bind_Value_inv in Hbranch as ([] & sm & Hm & Hbranch).
    apply (notification_only_Value _ _ _ _ (notification_only_Message_create _ _)) in Hm
      as [Hmo Hmp].
    unfold mret, M_ret in Hbranch. injection Hbranch as <- <-.
    cbn [offers products with_offers with_products] in Hco, Hcp, Hmo, Hmp |- *.
    split; [exact Hv|]. split; [reflexivity|].
    split; [by rewrite Hmo, Hco|].
    by rewrite Hmp, Hcp, Hps1.
  - apply bind_Value_inv in Hbranch as (c & sc & Hc & Hbranch).
    apply (notification_only_Value _ _ _ _ (notification_only_findOrCreate _ _ _)) in Hc
      as [Hco Hcp].
    apply bind_Value_inv in Hbranch as ([] & sm & Hm & Hbranch).
    apply (notification_only_Value _ _ _ _ (notification_only_Message_create _ _)) in Hm
      as [Hmo Hmp].
    unfold mret, M_ret in Hbranch. injection Hbranch as <- <-.
    cbn [offers products with_offers with_products] in Hco, Hcp, Hmo, Hmp |- *.
    split; [exact Hv|]. split; [reflexivity|].
    split; [by rewrite Hmo, Hco|].
    by rewrite Hmp, Hcp, Hps1.
Qed.

(** ** Counting pending offers *)







(** ** Handlers that add no pending offer *)














(** ** Proof automation *)










(** ** Hoare rules on the offer collection *)






Lemma hoare_conseq {A} (I P P' : list Offer.t → Prop) (m : M A) Q :
  (∀ os, P' os → P os) → hoare I P m Q → hoare I P' m Q.
Proof. intros HP Hm st HP'. apply Hm, HP, HP'. Qed.

(** ** The create handler keeps at most one pending offer per listing and
    buyer *)







(** * The properties of the specification *)

(** C1: for every offer creation (the listing is then available and
    accepts offers) where the listing's autoAcceptPrice is set, that is
    present and not 0, and offerAmount >= autoAcceptPrice, the created and
    stored offer has status 'accepted' and the listing is marked sold to
    the buyer with soldPrice equal to offerAmount. *)
Theorem C1_auto_accept_sells_listing env user listingId offerAmount message st l a o r st' :
  products st !! listingId = Some l →
  Product.autoAcceptPrice l = Some a →
  a ≠ 0 →
  a ≤ offerAmount →
  POST_offers env user listingId offerAmount message st = (Created o r, st') →
  Product.status l = Product.available ∧ Product.acceptsOffers l = true ∧
  r = Some auto_accept ∧
  Offer.status o = accepted ∧
  Offer.offerAmount o = offerAmount ∧
  o ∈ offers st' ∧
  ∃ l', products st' !! listingId = Some l' ∧
        Product.status l' = Product.sold ∧
        Product.soldTo l' = Some user ∧
        Product.soldPrice l' = Some offerAmount.
Proof.
  intros Hl Ha Hnz Hle Hpost.
  apply create_inv in Hpost as (l0 & os1 & Hl0 & Hav & Hacc & _ & _ & Hr & _ & Ho & Hos & Hps).
  rewrite Hl in Hl0. injection Hl0 as <-.
  assert (Hacc' : r = Some auto_accept).
  { rewrite Hr. unfold Offer.checkAutoResponse, Offer.new.
    cbn [Offer.val Offer.status Offer.autoAcceptPrice Offer.offerAmount].
    rewrite bool_decide_true by done. cbn [negb].
    rewrite Ha. cbn [and_then].
    rewrite (bool_decide_true _ Hnz), (bool_decide_true _ Hle). reflexivity. }
  rewrite Hacc' in Ho, Hps. cbn [responded] in Ho.
  split; [done|]. split; [done|]. split; [done|].
  split; [rewrite Ho; by rewrite written_status|].
  split; [rewrite Ho; by rewrite written_offerAmount|].
  split; [rewrite Hos; apply elem_of_app; right; left|].
  eexists. rewrite Hps, lookup_insert_eq. done.
Qed.

Lemma C1_auto_accept_sells_listing_witness :
  ∃ o st',
    POST_offers (Example.at_time 1000) 20 1 95 None (Example.shop None (Some 90))
      = (Created o (Some auto_accept), st') ∧
    Offer.status o = accepted ∧
    ∃ l', products st' !! 1%nat = Some l' ∧ Product.status l' = Product.sold ∧
          Product.soldTo l' = Some 20%nat ∧ Product.soldPrice l' = Some 95.
Proof.
  eexists _, _. split; [vm_compute; reflexivity|].
  edestruct (C1_auto_accept_sells_listing (Example.at_time 1000) 20 1 95 None
               (Example.shop None (Some 90)) (Example.shoes None (Some 90)) 90)
    as (_ & _ & _ & Hst & _ & _ & Hl);
    [reflexivity | reflexivity | lia | lia | vm_compute; reflexivity |].
  split; [exact Hst | exact Hl].
Defined.

(** C2, the claim as stated, fails: on a listing of price 100 with
    minimumOffer 80 and autoAcceptPrice 50, an offer of 60 is below the
    minimum, yet it is created as 'accepted' and the listing is sold. *)
Lemma C2_counterexample_accept_wins :
  Product.minimumOffer (Example.shoes (Some 80) (Some 50)) = Some 80 ∧ 60 < 80 ∧
  Product.validate (Example.shoes (Some 80) (Some 50)) = true ∧
  ∃ o st',
    POST_offers (Example.at_time 1000) 20 1 60 None (Example.shop (Some 80) (Some 50))
      = (Created o (Some auto_accept), st') ∧
    Offer.status o = accepted ∧
    Offer.status o ≠ declined ∧
    Product.status <$> products st' !! 1%nat = Some Product.sold ∧
    products st' ≠ products (Example.shop (Some 80) (Some 50)).
Proof.
  split; [reflexivity|]. split; [lia|]. split; [reflexivity|].
  eexists _, _. split; [vm_compute; reflexivity|].
  split; [reflexivity|]. split; [discriminate|]. split; [reflexivity|].
  intros Heq. apply (f_equal (λ m, Product.status <$> m !! 1%nat)) in Heq.
  vm_compute in Heq. discriminate.
Qed.

(** C2 (as amended): for every offer creation where the listing's
    minimumOffer is set (present and not 0) and offerAmount < minimumOffer,
    and where the auto-accept rule does not apply (autoAcceptPrice absent, 0,
    or above offerAmount), the created and stored offer has status
    'declined' and no listing is changed. *)
Theorem C2_auto_decline_keeps_listing env user listingId offerAmount message st l m o r st' :
  products st !! listingId = Some l →
  Product.minimumOffer l = Some m →
  m ≠ 0 →
  offerAmount < m →
  (∀ a, Product.autoAcceptPrice l = Some a → a ≠ 0 → offerAmount < a) →
  POST_offers env user listingId offerAmount message st = (Created o r, st') →
  r = Some auto_decline ∧
  Offer.status o = declined ∧
  o ∈ offers st' ∧
  products st' = products st.
Proof.
  intros Hl Hm Hnz Hlt Hauto Hpost.
  apply create_inv in Hpost as (l0 & os1 & Hl0 & _ & _ & _ & _ & Hr & _ & Ho & Hos & Hps).
  rewrite Hl in Hl0. injection Hl0 as <-.
  assert (Hdec : r = Some auto_decline).
  { rewrite Hr. unfold Offer.checkAutoResponse, Offer.new.
    cbn [Offer.val Offer.status Offer.autoAcceptPrice Offer.minimumOffer Offer.offerAmount].
    rewrite bool_decide_true by done. cbn [negb].
    assert (and_then (Product.autoAcceptPrice l) (λ a, bool_decide (a ≤ offerAmount)) = false)
      as ->.
    { destruct (Product.autoAcceptPrice l) as [a|]; [|done]. cbn [and_then].
      destruct (decide (a = 0)) as [->|Hne]; [done|].
      specialize (Hauto a eq_refl Hne).
      rewrite (bool_decide_true _ Hne), bool_decide_false by lia. done. }
    rewrite Hm. cbn [and_then].
    rewrite (bool_decide_true _ Hnz), (bool_decide_true _ Hlt). reflexivity. }
  rewrite Hdec in Ho, Hps. cbn [responded] in Ho.
  split; [done|].
  split; [rewrite Ho; by rewrite written_status|].
  split; [rewrite Hos; apply elem_of_app; right; left|].
  exact Hps.
Qed.

Lemma C2_auto_decline_keeps_listing_witness :
  ∃ o st',
    POST_offers (Example.at_time 1000) 20 1 40 None (Example.shop (Some 50) None)
      = (Created o (Some auto_decline), st') ∧
    Offer.status o = declined ∧
    products st' = products (Example.shop (Some 50) None).
Proof.
  eexists _, _. split; [vm_compute; reflexivity|].
  edestruct (C2_auto_decline_keeps_listing (Example.at_time 1000) 20 1 40 None
               (Example.shop (Some 50) None) (Example.shoes (Some 50) None) 50)
    as (_ & Hst & _ & Hps);
    [reflexivity | reflexivity | lia | lia | intros a [=] | vm_compute; reflexivity |].
  split; [exact Hst | exact Hps].
Defined.

(** C3: when the seller accepts a pending, unexpired offer on listing L,
    every other offer on L that was pending is declined (so no pending offer
    is left on L), the accepted offer is stored as 'accepted', and L is
    sold, its one soldTo/soldPrice pair being the offer's buyer and
    offerAmount.  This holds whatever happens to the notification. *)
Theorem C3_accept_declines_other_pending env user id st o l :
  stored id st = Some o →
  Offer.seller o = user →
  Offer.status o = pending →
  ¬ Offer.expiresAt o < now env →
  Offer.validate o = true →
  products st !! Offer.listing o = Some l →
  Product.validate l = true →
  let st' := snd (PUT_accept env user id st) in
  (∀ i x, offers st !! i = Some x →
          Offer.listing x = Offer.listing o → Offer.status x = pending →
          Offer._id x ≠ id →
          ∃ x', offers st' !! i = Some x' ∧ Offer._id x' = Offer._id x ∧
                Offer.buyer x' = Offer.buyer x ∧ Offer.status x' = declined) ∧
  (∃ o', stored id st' = Some o' ∧ Offer.status o' = accepted ∧
         Offer.offerAmount o' = Offer.offerAmount o) ∧
  (∀ x, x ∈ offers st' → Offer.listing x = Offer.listing o → Offer.status x ≠ pending) ∧
  (∃ l', products st' !! Offer.listing o = Some l' ∧
         Product.status l' = Product.sold ∧
         Product.soldTo l' = Some (Offer.buyer o) ∧
         Product.soldPrice l' = Some (Offer.offerAmount o)).
Proof.
  intros Hf Hs Hp He Hv Hl Hlv st'.
  destruct (accept_run env user id st o l) as (m & Hm & _ & Hrun); [done..|].
  pose proof (find_by_id_Some _ _ _ Hf) as Hid.
  cbv zeta in Hrun. revert Hrun.
  set (oa := Offer.written (now env) _).
  set (filt := λ x : Offer.t,
         bool_decide (Offer.listing x = Offer.listing o) &&
         bool_decide (Offer.status x = pending) &&
         negb (bool_decide (Offer._id x = id))).
  set (upd := λ x : Offer.t, Offer.stamp false (now env)
                (Offer.set_declinedAt (now env) (Offer.set_status declined x))).
  intros Hrun.
  assert (Hoa_id : Offer._id oa = id) by (unfold oa; rewrite written_id; exact Hid).
  assert (Hoa_st : Offer.status oa = accepted) by (unfold oa; rewrite written_status; done).
  assert (Hoa_a : Offer.offerAmount oa = Offer.offerAmount o)
    by (unfold oa; rewrite written_offerAmount; done).
  assert (Hos : offers st' = (λ x, if filt x then upd x else x) <$> write_offer false oa (offers st)).
  { unfold st'. rewrite Hrun, snd_route. apply Hm. }
  assert (Hps : products st' =
                <[Offer.listing o := Product.sell (Offer.buyer o) (Offer.offerAmount o)
                                       (Some (now env)) l]> (products st)).
  { unfold st'. rewrite Hrun, snd_route. apply Hm. }
  clearbody st'. clear Hrun.
  split; [|split; [|split]].
  - intros i x Hi Hxl Hxp Hxid.
    exists (upd x). rewrite Hos, list_lookup_fmap.
    rewrite (lookup_write_offer_ne oa _ _ x Hi) by congruence.
    cbn [fmap option_fmap option_map].
    assert (Hfx : filt x = true).
    { unfold filt. rewrite (bool_decide_true _ Hxl), (bool_decide_true _ Hxp),
        (bool_decide_false _ Hxid). done. }
    rewrite Hfx. done.
  - exists oa. split; [|done].
    unfold stored. rewrite Hos.
    assert (Hfw := find_write_offer id o oa (offers st) Hf Hoa_id).
    rewrite (find_fmap_by_id id _ _ oa) by
      (try exact Hfw; intros y; destruct (filt y); reflexivity).
    unfold filt. rewrite (bool_decide_true _ Hoa_id), andb_false_r. reflexivity.
  - intros x Hx Hxl. rewrite Hos in Hx.
    apply list_elem_of_fmap in Hx as (y & -> & Hy).
    destruct (filt y) eqn:Hfy; [done|].
    apply elem_of_write_offer in Hy as [->|[Hy Hne]]; [by rewrite Hoa_st|].
    intros Hyp. unfold filt in Hfy.
    rewrite (bool_decide_true _ Hxl), (bool_decide_true _ Hyp) in Hfy.
    rewrite bool_decide_false in Hfy by congruence. done.
  - eexists. rewrite Hps, lookup_insert_eq. done.
Qed.

Lemma C3_accept_declines_other_pending_witness :
  let st' := snd (PUT_accept (Example.at_time 3000) 10 0 Example.two_offers) in
  (Offer.status <$> stored 0 st') = Some accepted ∧
  (∀ x, x ∈ offers st' → Offer.listing x = 1%nat → Offer.status x ≠ pending) ∧
  ∃ l', products st' !! 1%nat = Some l' ∧ Product.status l' = Product.sold ∧
        Product.soldTo l' = Some 20%nat ∧ Product.soldPrice l' = Some 60.
Proof.
  intros st'.
  edestruct (C3_accept_declines_other_pending (Example.at_time 3000) 10 0 Example.two_offers)
    as (_ & (o' & Ho' & Hst & _) & Hnone & Hsold);
    [ vm_compute; reflexivity | reflexivity | reflexivity | vm_compute; discriminate
    | reflexivity | reflexivity | reflexivity | ].
  fold st' in Ho', Hnone, Hsold.
  split; [rewrite Ho'; cbn; by rewrite Hst|].
  split; [exact Hnone | exact Hsold].
Defined.






(** C5, on the code: the other pending offers of a listing that a
    seller's accept declines change status without any history entry: they
    are written by [Offer.updateMany], which runs no [save] hook, so their
    history is what it was. *)
Theorem C5_sibling_decline_appends_nothing env user id st o l i x :
  stored id st = Some o →
  Offer.seller o = user →
  Offer.status o = pending →
  ¬ Offer.expiresAt o < now env →
  Offer.validate o = true →
  products st !! Offer.listing o = Some l →
  Product.validate l = true →
  offers st !! i = Some x →
  Offer.listing x = Offer.listing o →
  Offer.status x = pending →
  Offer._id x ≠ id →
  ∃ x', offers (snd (PUT_accept env user id st)) !! i = Some x' ∧
        Offer._id x' = Offer._id x ∧
        Offer.status x' = declined ∧
        Offer.history x' = Offer.history x.
Proof.
  intros Hf Hs Hp He Hv Hl Hlv Hi Hxl Hxp Hxid.
  destruct (accept_run env user id st o l) as (m & Hm & _ & Hrun); [done..|].
  pose proof (find_by_id_Some _ _ _ Hf) as Hid.
  cbv zeta in Hrun. revert Hrun.
  set (oa := Offer.written (now env) _).
  set (filt := λ x : Offer.t,
         bool_decide (Offer.listing x = Offer.listing o) &&
         bool_decide (Offer.status x = pending) &&
         negb (bool_decide (Offer._id x = id))).
  set (upd := λ x : Offer.t, Offer.stamp false (now env)
                (Offer.set_declinedAt (now env) (Offer.set_status declined x))).
  intros Hrun.
  assert (Hoa_id : Offer._id oa = id) by (unfold oa; rewrite written_id; exact Hid).
  assert (Hos : offers (snd (PUT_accept env user id st)) =
                (λ x, if filt x then upd x else x) <$> write_offer false oa (offers st)).
  { rewrite Hrun, snd_route. apply Hm. }
  exists (upd x). rewrite Hos, list_lookup_fmap.
  rewrite (lookup_write_offer_ne oa _ _ x Hi) by congruence.
  cbn [fmap option_fmap option_map].
  assert (Hfx : filt x = true).
  { unfold filt. rewrite (bool_decide_true _ Hxl), (bool_decide_true _ Hxp),
      (bool_decide_false _ Hxid). done. }
  rewrite Hfx. done.
Qed.

Lemma C5_sibling_decline_appends_nothing_witness :
  let st := Example.two_offers in
  let st' := snd (PUT_accept (Example.at_time 3000) 10 0 st) in
  (Offer.status <$> stored 1 st) = Some pending ∧
  (Offer.status <$> stored 1 st') = Some declined ∧
  (Offer.history <$> stored 1 st') = (Offer.history <$> stored 1 st) ∧
  (length ∘ Offer.history <$> stored 0 st') = Some (S (length (Offer.history
     (default (Offer.val (Offer.new 0 0 0 0 0 0 0 None None None)) (stored 0 st))))).
Proof.
  intros st st'.
  edestruct (C5_sibling_decline_appends_nothing (Example.at_time 3000) 10 0 st)
    with (i := 1%nat) as (x' & Hx' & _ & Hst & Hh);
    [ vm_compute; reflexivity | reflexivity | reflexivity | vm_compute; discriminate
    | reflexivity | reflexivity | reflexivity
    | vm_compute; reflexivity | reflexivity | reflexivity | discriminate | ].
  fold st' in Hx'.
  assert (Hs1 : stored 1 st' = Some x').
  { assert (Hone : stored 1 st' = offers st' !! 1%nat) by (vm_compute; reflexivity).
    rewrite Hone. exact Hx'. }
  split; [vm_compute; reflexivity|].
  split; [rewrite Hs1; cbn; by rewrite Hst|].
  split; [rewrite Hs1; cbn; rewrite Hh; vm_compute; reflexivity|].
  vm_compute. reflexivity.
Defined.

(** The hook writes the status as the action of the entry it appends, and
    no status is spelled 'created': whatever the document, [save] never
    adds a 'created' entry. *)
Lemma status_str_not_created s : status_str s ≠ "created".
Proof. destruct s; discriminate. Qed.

Lemma save_never_writes_created now d h :
  h ∈ Offer.history (Offer.written now d) →
  h ∈ Offer.history (Offer.val d) ∨ action h ≠ "created".
Proof.
  rewrite written_history. destruct (Offer.isModified "status" d); [|by left].
  intros [Hin|Hin%list_elem_of_singleton]%elem_of_app; [by left|right].
  subst h. apply status_str_not_created.
Qed.

(** The schema declares 'created' as an action and does not declare
    'pending': the one entry a fresh pending offer could get from the hook
    would not pass the schema. *)
Lemma hook_actions_and_enum :
  "created" ∈ action_enum ∧ (status_str pending ∉ action_enum) ∧
  (∀ s, s ≠ pending → status_str s ∈ action_enum).
Proof.
  split; [by left|]. split.
  - unfold action_enum. cbn [status_str]. intros H.
    repeat (apply elem_of_cons in H as [H|H]; [discriminate H|]).
    by apply elem_of_nil in H.
  - intros [] Hs; [done|..]; unfold action_enum; cbn [status_str];
      repeat first [by left | right].
Qed.

(** C6, on the code: every successful creation without auto-response
    stores an offer with status 'pending', but with an empty history.  The
    status of the fresh document comes from the schema default, so the
    path is not marked modified and the hook appends nothing; there is no
    'created' entry. *)
Theorem C6_created_offer_has_empty_history env user listingId offerAmount message st o st' :
  POST_offers env user listingId offerAmount message st = (Created o None, st') →
  Offer.status o = pending ∧
  o ∈ offers st' ∧
  Offer.history o = [] ∧
  ¬ ∃ h, h ∈ Offer.history o ∧ action h = "created".
Proof.
  intros Hpost.
  apply create_inv in Hpost as (l & os1 & _ & _ & _ & _ & _ & _ & _ & Ho & Hos & _).
  cbn [responded] in Ho.
  assert (Hh : Offer.history o = []).
  { rewrite Ho, written_history. reflexivity. }
  split; [rewrite Ho; by rewrite written_status|].
  split; [rewrite Hos; apply elem_of_app; right; left|].
  split; [exact Hh|].
  rewrite Hh. intros (h & Hin & _). by apply elem_of_nil in Hin.
Qed.

Lemma C6_created_offer_has_empty_history_witness :
  ∃ o st',
    POST_offers (Example.at_time 1000) 20 1 60 None (Example.shop None None)
      = (Created o None, st') ∧
    Offer.status o = pending ∧ Offer.history o = [].
Proof.
  eexists _, _. split; [vm_compute; reflexivity|].
  edestruct (C6_created_offer_has_empty_history (Example.at_time 1000) 20 1 60 None
               (Example.shop None None))
    as (Hst & _ & Hh & _); [vm_compute; reflexivity|].
  split; [exact Hst | exact Hh].
Defined.

(** C7: a seller's counter on a pending offer with counterAmount <=
    offerAmount or counterAmount > originalPrice is rejected with a
    validation error (status 400), and nothing is written: the store, and
    with it the offer (status 'pending', counterOffer, expiresAt), is
    unchanged. *)
Theorem C7_counter_out_of_range_rejected env user id counterAmount counterMessage st o :
  stored id st = Some o →
  Offer.seller o = user →
  Offer.status o = pending →
  counterAmount ≤ Offer.offerAmount o ∨ Offer.originalPrice o < counterAmount →
  (PUT_counter env user id counterAmount counterMessage st =
     (Error 400 "Counter offer must be higher than the original offer", st) ∨
   PUT_counter env user id counterAmount counterMessage st =
     (Error 400 "Counter offer cannot exceed the listing price", st)) ∧
  stored id (snd (PUT_counter env user id counterAmount counterMessage st)) = Some o.
Proof.
  intros Hf Hs Hp Hrange. unfold stored in *.
  assert (H : PUT_counter env user id counterAmount counterMessage st =
     (Error 400 "Counter offer must be higher than the original offer", st) ∨
   PUT_counter env user id counterAmount counterMessage st =
     (Error 400 "Counter offer cannot exceed the listing price", st)).
  { unfold PUT_counter, route.
    rewrite run_bind, Offer_findById_run, Hf.
    cbn [fmap option_fmap option_map].
    rewrite run_bind, Product_findById_run.
    cbn [Offer.val Offer.loaded].
    rewrite (bool_decide_true _ Hs), (bool_decide_true _ Hp).
    cbn [negb].
    destruct (decide (counterAmount ≤ Offer.offerAmount o)) as [Hle|Hgt].
    - rewrite (bool_decide_true _ Hle). left. reflexivity.
    - rewrite (bool_decide_false _ Hgt).
      destruct Hrange as [Hle|Hhi]; [contradiction|].
      rewrite (bool_decide_true _ Hhi). right. reflexivity. }
  split; [exact H|].
  destruct H as [-> | ->]; exact Hf.
Qed.

Lemma C7_counter_out_of_range_rejected_witness :
  PUT_counter (Example.at_time 2000) 10 0 60 None Example.one_offer =
    (Error 400 "Counter offer must be higher than the original offer", Example.one_offer) ∧
  PUT_counter (Example.at_time 2000) 10 0 101 None Example.one_offer =
    (Error 400 "Counter offer cannot exceed the listing price", Example.one_offer).
Proof.
  split.
  - edestruct (C7_counter_out_of_range_rejected (Example.at_time 2000) 10 0 60 None
                 Example.one_offer) as [[H|H] _];
      [ vm_compute; reflexivity | reflexivity | reflexivity | left; vm_compute; discriminate
      | exact H | vm_compute in H; discriminate H ].
  - edestruct (C7_counter_out_of_range_rejected (Example.at_time 2000) 10 0 101 None
                 Example.one_offer) as [[H|H] _];
      [ vm_compute; reflexivity | reflexivity | reflexivity | right; vm_compute; reflexivity
      | vm_compute in H; discriminate H | exact H ].
Defined.






(** C10: a seller's accept of a pending offer past its expiry (an offer
    that satisfies its schema, on an existing listing) is rejected with
    'Offer has expired', and the rejection changes the state: the offer is
    written back with status 'expired' and one more history entry (action
    'expired') before the error is returned. *)
Theorem C10_accept_expired_persists env user id st o l :
  stored id st = Some o →
  products st !! Offer.listing o = Some l →
  Offer.seller o = user →
  Offer.status o = pending →
  Offer.expiresAt o < now env →
  Offer.validate o = true →
  ∃ st' o',
    PUT_accept env user id st = (Error 400 "Offer has expired", st') ∧
    stored id st' = Some o' ∧
    Offer.status o' = expired ∧
    (∃ h, Offer.history o' = Offer.history o ++ [h] ∧ action h = "expired") ∧
    products st' = products st.
Proof.
  intros Hf _ Hs Hp He Hv. unfold stored in *.
  unfold PUT_accept, route.
  rewrite run_bind, Offer_findById_run, Hf.
  cbn [fmap option_fmap option_map].
  rewrite run_bind, Product_findById_run.
  cbn [Offer.val Offer.loaded].
  rewrite (bool_decide_true _ Hs), (bool_decide_true _ Hp).
  cbn [negb].
  assert (Hx : Offer.isExpired (now env) o = true).
  { unfold Offer.isExpired. rewrite (bool_decide_true _ Hp), (bool_decide_true _ He). done. }
  rewrite Hx, run_bind, Offer_save_run by (rewrite validate_assign_status; exact Hv).
  unfold reply.
  eexists _, _. split; [reflexivity|].
  cbn [offers with_offers products Offer.isNew Offer.assign_status Offer.assign Offer.loaded].
  split; [|split; [|split]].
  - eapply find_write_offer; [exact Hf|].
    unfold Offer.written, Offer.pre_save.
    rewrite isModified_assign_status by (rewrite Hp; discriminate).
    cbn. by apply find_by_id_Some in Hf.
  - unfold Offer.written, Offer.pre_save.
    rewrite isModified_assign_status by (rewrite Hp; discriminate).
    reflexivity.
  - unfold Offer.written, Offer.pre_save.
    rewrite isModified_assign_status by (rewrite Hp; discriminate).
    eexists. split; reflexivity.
  - reflexivity.
Qed.

Lemma C10_accept_expired_persists_witness :
  ∃ st',
    PUT_accept (Example.at_time 200000000) 10 0 Example.one_offer =
      (Error 400 "Offer has expired", st') ∧
    (Offer.status <$> stored 0 Example.one_offer) = Some pending ∧
    (Offer.status <$> stored 0 st') = Some expired ∧
    (length ∘ Offer.history <$> stored 0 st') = Some 1%nat.
Proof.
  edestruct (C10_accept_expired_persists (Example.at_time 200000000) 10 0 Example.one_offer)
    as (st' & o' & Heq & Ho' & Hst & (h & Hh & _) & _);
    [ vm_compute; reflexivity | reflexivity | reflexivity | reflexivity
    | vm_compute; reflexivity | reflexivity | ].
  exists st'. split; [exact Heq|].
  split; [vm_compute; reflexivity|].
  split; [rewrite Ho'; cbn; by rewrite Hst|].
  rewrite Ho'. cbn. rewrite Hh. vm_compute. reflexivity.
Defined.
